(** * AggregatedProfiles (dalex/dataset_level/_aggregated_profiles/object.py)

    A shallow embedding of the [AggregatedProfiles] class: construction,
    [fit] (input dispatch, concatenation, aggregation, mean prediction) and
    [plot] (merging, variable filtering, figure building, show/return).

    Python floats are modelled as [Q] (no NaN in the data columns; the NaN
    of a mean over an empty column is the constructor [NaN] of [pyfloat]),
    ints as [Z], pandas tables as lists of row records, and exceptions as
    the constructors of [PyError]. The code of [checks.py] and [utils.py]
    is not part of the sources; the parts of it that [object.py] calls are
    modelled from the spec and marked so. The plotting library is left
    abstract (Section variables). *)

From Stdlib Require Import String List Bool ZArith QArith Lqa Lia.
Import ListNotations.
Open Scope string_scope.
Set Warnings "-register-all".

(** ** Python values and exceptions *)

Inductive PyError :=
| TypeError
| ValueError
| AttributeError
| ZeroDivisionError.

Inductive result (A : Type) :=
| Ok (a : A)
| Err (e : PyError).
Arguments Ok {A} a.
Arguments Err {A} e.

Definition rbind {A B} (r : result A) (f : A -> result B) : result B :=
  match r with Ok a => f a | Err e => Err e end.

Notation "x <-? r ;; k" := (rbind r (fun x => k))
  (at level 61, r at next level, right associativity).
Notation "' p <-? r ;; k" := (rbind r (fun x => match x with p => k end))
  (at level 61, p pattern, r at next level, right associativity).

(** A float result of a pandas reduction: a number, or NaN. *)
Inductive pyfloat :=
| Float (q : Q)
| NaN.

(** Membership as used by [in], [isin] and set intersection on strings. *)
Definition mem (s : string) (l : list string) : bool :=
  existsb (String.eqb s) l.

(** [Series.unique()]: distinct values in order of first appearance. *)
Fixpoint unique_aux (seen : list string) (l : list string) : list string :=
  match l with
  | [] => []
  | x :: xs =>
      if mem x seen then unique_aux seen xs
      else x :: unique_aux (x :: seen) xs
  end.

Definition unique (l : list string) : list string := unique_aux [] l.

(** ** Tables *)

(** A cell of the [_x_] column: numeric or categorical. *)
Inductive cell :=
| Num (q : Q)
| Cat (s : string).

(** A row of a Ceteris Paribus [result] table. *)
Record profile_row := {
  p_vname : string;   (* _vname_ *)
  p_x : cell;         (* the varied value *)
  p_yhat : Q;         (* _yhat_ *)
  p_ids : string;     (* _ids_ *)
  p_label : string    (* _label_ *)
}.

(** A row of a Ceteris Paribus [new_observation] table. *)
Record obs_row := {
  o_ids : string;
  o_yhat : Q;         (* _yhat_ *)
  o_label : string
}.

(** A row of an aggregated [result] table. *)
Record agg_row := {
  a_vname : string;   (* _vname_ *)
  a_x : cell;         (* _x_ *)
  a_yhat : Q;         (* _yhat_ *)
  a_label : string;   (* _label_ *)
  a_groups : string   (* _groups_ *)
}.

(** A (fitted) [CeterisParibus] object, as far as [fit] reads it. *)
Record CeterisParibus := {
  cp_result : list profile_row;
  cp_new_observation : list obs_row
}.

(** [deepcopy]: the model has no sharing, a copy is the value itself. *)
Definition deepcopy (cp : CeterisParibus) : CeterisParibus := cp.

(** The argument [ceteris_paribus] of [fit]: any Python object, of which
    [fit] distinguishes CeterisParibus instances, lists and tuples. *)
Inductive pyobj :=
| PyCP (cp : CeterisParibus)
| PyList (xs : list pyobj)
| PyTuple (xs : list pyobj)
| PyOther (repr : string).

(** [pd.concat([acc, df])] where [acc] starts as [None]: pandas drops the
    [None] entries, so the first concatenation yields [df]. *)
Definition pd_concat {A} (acc : option (list A)) (df : list A) : option (list A) :=
  Some (match acc with None => df | Some a => app a df end).

(** [df['col']] where [df] may be Python's [None]: subscripting [None]
    raises TypeError. *)
Definition subscript {A B} (df : option (list A)) (col : A -> B) : result (list B) :=
  match df with
  | None => Err TypeError
  | Some rows => Ok (map col rows)
  end.

(** [Series.mean()] on a float column: NaN on an empty column. *)
Fixpoint Qsum (l : list Q) : Q :=
  match l with [] => 0 | q :: qs => q + Qsum qs end.

Definition series_mean (l : list Q) : pyfloat :=
  match l with
  | [] => NaN
  | _ => Float (Qsum l / inject_Z (Z.of_nat (length l)))
  end.

(** ** The object *)

Record AggregatedProfiles := {
  ap_variable_type : string;
  ap_groups : option (list string);
  ap_type : string;
  ap_variables : option (list string);
  ap_span : Q;
  ap_center : bool;
  ap_result : option (list agg_row);
  ap_mean_prediction : option pyfloat;
  ap_raw_profiles : option CeterisParibus;
  ap_random_state : option Z
}.

Definition set_result (s : AggregatedProfiles) (r : list agg_row) : AggregatedProfiles :=
  {| ap_variable_type := ap_variable_type s; ap_groups := ap_groups s;
     ap_type := ap_type s; ap_variables := ap_variables s; ap_span := ap_span s;
     ap_center := ap_center s; ap_result := Some r;
     ap_mean_prediction := ap_mean_prediction s;
     ap_raw_profiles := ap_raw_profiles s; ap_random_state := ap_random_state s |}.

Definition set_mean_prediction (s : AggregatedProfiles) (m : pyfloat) : AggregatedProfiles :=
  {| ap_variable_type := ap_variable_type s; ap_groups := ap_groups s;
     ap_type := ap_type s; ap_variables := ap_variables s; ap_span := ap_span s;
     ap_center := ap_center s; ap_result := ap_result s;
     ap_mean_prediction := Some m;
     ap_raw_profiles := ap_raw_profiles s; ap_random_state := ap_random_state s |}.

Definition set_raw_profiles (s : AggregatedProfiles) (cp : CeterisParibus) : AggregatedProfiles :=
  {| ap_variable_type := ap_variable_type s; ap_groups := ap_groups s;
     ap_type := ap_type s; ap_variables := ap_variables s; ap_span := ap_span s;
     ap_center := ap_center s; ap_result := ap_result s;
     ap_mean_prediction := ap_mean_prediction s;
     ap_raw_profiles := Some cp; ap_random_state := ap_random_state s |}.

(** The configuration of an object: everything but the three fields that
    [fit] writes. *)
Definition same_config (s1 s2 : AggregatedProfiles) : Prop :=
  ap_variable_type s1 = ap_variable_type s2 /\ ap_groups s1 = ap_groups s2 /\
  ap_type s1 = ap_type s2 /\ ap_variables s1 = ap_variables s2 /\
  ap_span s1 = ap_span s2 /\ ap_center s1 = ap_center s2 /\
  ap_random_state s1 = ap_random_state s2.

(** ** Methods: a state and exception monad

    A method runs on [self]; an exception leaves [self] as the statements
    before it have left it (Python keeps attribute writes made before a
    [raise]). *)

Definition M (A : Type) := AggregatedProfiles -> AggregatedProfiles * result A.

Definition ret {A} (a : A) : M A := fun self => (self, Ok a).
Definition throw {A} (e : PyError) : M A := fun self => (self, Err e).
Definition lift {A} (r : result A) : M A := fun self => (self, r).
Definition get : M AggregatedProfiles := fun self => (self, Ok self).
Definition modify (f : AggregatedProfiles -> AggregatedProfiles) : M unit :=
  fun self => (f self, Ok tt).

Definition bind {A B} (m : M A) (k : A -> M B) : M B :=
  fun self =>
    match m self with
    | (self', Ok a) => k a self'
    | (self', Err e) => (self', Err e)
    end.

Notation "x <- m ;; k" := (bind m (fun x => k))
  (at level 61, m at next level, right associativity).
Notation "' p <- m ;; k" := (bind m (fun x => match x with p => k end))
  (at level 61, p pattern, m at next level, right associativity).

(** ** Construction ([__init__]) *)

(** The name arguments [variables] and [groups]: None, a str, or a
    sequence of str. *)
Inductive names_arg :=
| NamesNone
| NamesStr (s : string)
| NamesList (l : list string).

(** Modelled from the spec: [check_variable_type] of checks.py (not in the
    sources). "Fails with a validation error if variable-kind is not one of
    the two recognized values": the validation error is a ValueError. *)
Definition check_variable_type (variable_type : string) : result unit :=
  if mem variable_type ["numerical"; "categorical"] then Ok tt else Err ValueError.

(** Modelled from the spec: [check_variables] of checks.py (not in the
    sources). "Normalizes scalar name arguments into sequences." *)
Definition check_variables (variables : names_arg) : option (list string) :=
  match variables with
  | NamesNone => None
  | NamesStr s => Some [s]
  | NamesList l => Some l
  end.

(** Modelled from the spec: [check_groups] of checks.py (not in the
    sources), the same normalisation as [check_variables]. *)
Definition check_groups (groups : names_arg) : option (list string) :=
  match groups with
  | NamesNone => None
  | NamesStr s => Some [s]
  | NamesList l => Some l
  end.

Definition init (type : string) (variables : names_arg) (variable_type : string)
    (groups : names_arg) (span : Q) (center : bool) (random_state : option Z)
    : result AggregatedProfiles :=
  _ <-? check_variable_type variable_type ;;
  let variables_ := check_variables variables in
  let groups_ := check_groups groups in
  Ok {| ap_variable_type := variable_type; ap_groups := groups_; ap_type := type;
        ap_variables := variables_; ap_span := span; ap_center := center;
        ap_result := None; ap_mean_prediction := None; ap_raw_profiles := None;
        ap_random_state := random_state |}.

(** ** [fit] *)

(** The [for cp in ceteris_paribus] loop of the list/tuple branch. *)
Fixpoint collect_sequence (cps : list pyobj) (all_profiles : option (list profile_row))
    (all_observations : option (list obs_row))
    : result (option (list profile_row) * option (list obs_row)) :=
  match cps with
  | [] => Ok (all_profiles, all_observations)
  | PyCP cp :: rest =>
      collect_sequence rest (pd_concat all_profiles (cp_result cp))
                            (pd_concat all_observations (cp_new_observation cp))
  | _ :: _ => Err TypeError
  end.

(** Modelled from the spec: [prepare_all_variables] of checks.py (not in
    the sources), one of the validation helpers. "determines the effective
    variable set (intersection of requested variables, or all available
    ...)": the available variables are the distinct values of the [_vname_]
    column of the concatenated table; reading that column of Python's
    [None] (what an empty list leaves) raises TypeError, and an empty
    intersection with the requested variables raises ValueError. *)
Definition prepare_all_variables (all_profiles : option (list profile_row))
    (variables : option (list string)) : result (list string) :=
  vn <-? subscript all_profiles p_vname ;;
  let all_variables := unique vn in
  match variables with
  | None => Ok all_variables
  | Some vs =>
      match filter (fun v => mem v vs) all_variables with
      | [] => Err ValueError
      | all_variables_intersect => Ok all_variables_intersect
      end
  end.

Section Fit.

(** Modelled from the spec: [prepare_numerical_categorical] of checks.py
    (not in the sources), a validation helper: the variables are
    "restricted to those matching the requested numerical/categorical kind";
    it returns the table and the names kept, or None when it raises
    ValueError (no variable of the requested kind). Left abstract. *)
Variable prepare_numerical_categorical :
  list string -> option (list profile_row) -> string -> option (list profile_row * list string).

(** Modelled from the spec: [create_x] of checks.py (not in the sources),
    total and abstract. *)
Variable create_x : list profile_row -> string -> list profile_row.

(** Modelled from the spec: [aggregate_profiles] of utils.py (not in the
    sources): partial, conditional (Gaussian kernel) or accumulated
    aggregation; the spec names no failure of it, so it is a total function
    of its arguments, left abstract. *)
Variable aggregate_profiles :
  list profile_row -> string -> option (list string) -> bool -> Q -> bool -> list agg_row.

Definition fit (ceteris_paribus : pyobj) (verbose : bool) : M unit :=
  '(all_profiles, all_observations) <-
    match ceteris_paribus with
    | PyCP cp =>
        let all_profiles := cp_result cp in
        let all_observations := cp_new_observation cp in
        _ <- modify (fun self => set_raw_profiles self (deepcopy cp)) ;;
        ret (Some all_profiles, Some all_observations)
    | PyList l | PyTuple l => lift (collect_sequence l None None)
    | PyOther _ => throw TypeError
    end ;;
  self <- get ;;
  all_variables <- lift (prepare_all_variables all_profiles (ap_variables self)) ;;
  '(all_profiles, vnames) <-
    match prepare_numerical_categorical all_variables all_profiles (ap_variable_type self) with
    | Some p => ret p
    | None => throw ValueError
    end ;;
  (* select only suitable variables *)
  let all_profiles := filter (fun r => mem (p_vname r) vnames) all_profiles in
  let all_profiles := create_x all_profiles (ap_variable_type self) in
  _ <- modify (fun self =>
         set_result self (aggregate_profiles all_profiles (ap_type self) (ap_groups self)
                            (ap_center self) (ap_span self) verbose)) ;;
  yhat <- lift (subscript all_observations o_yhat) ;;
  modify (fun self => set_mean_prediction self (series_mean yhat)).

End Fit.

(** ** [plot] *)

(** The argument [objects] of [plot]: None, one AggregatedProfiles object,
    an iterable of Python objects, or a non-iterable object. *)
Inductive apval :=
| VNone
| VAP (a : AggregatedProfiles)
| VSeq (l : list apval)
| VOther.

(** A row of the merged table: an aggregated row and its [_mp_] cell. *)
Definition plot_row := (agg_row * option pyfloat)%type.

(** [self.result.assign(_mp_=self.mean_prediction)]: an unfitted object has
    [result = None], which has no [assign] (AttributeError). *)
Definition assign_mp (ob : AggregatedProfiles) : result (list plot_row) :=
  match ap_result ob with
  | None => Err AttributeError
  | Some df => Ok (map (fun r => (r, ap_mean_prediction ob)) df)
  end.

(** The [for ob in objects] loop. *)
Fixpoint concat_objects (acc : list plot_row) (obs : list apval) : result (list plot_row) :=
  match obs with
  | [] => Ok acc
  | VAP ob :: rest =>
      df <-? assign_mp ob ;;
      concat_objects (app acc df) rest
  | _ :: _ => Err TypeError
  end.

(** The merged table [_result_df] of [self] and [objects]. *)
Definition merge_results (self : AggregatedProfiles) (objects : apval) : result (list plot_row) :=
  match objects with
  | VNone => assign_mp self
  | VAP ob =>
      df1 <-? assign_mp self ;;
      df2 <-? assign_mp ob ;;
      Ok (app df1 df2)
  | VSeq l =>
      df <-? assign_mp self ;;
      concat_objects df l
  | VOther =>
      (* iterating a non-iterable object *)
      _ <-? assign_mp self ;;
      Err TypeError
  end.

(** [np.intersect1d]: the sorted distinct common values. *)
Fixpoint insert_sorted (s : string) (l : list string) : list string :=
  match l with
  | [] => [s]
  | x :: xs => if String.leb s x then s :: l else x :: insert_sorted s xs
  end.

Definition sort_strings (l : list string) : list string := fold_right insert_sorted [] l.

Definition intersect1d (a b : list string) : list string :=
  sort_strings (unique (filter (fun v => mem v b) a)).

Fixpoint Qmin_list (q : Q) (l : list Q) : Q :=
  match l with [] => q | x :: xs => Qmin_list (if Qle_bool x q then x else q) xs end.
Fixpoint Qmax_list (q : Q) (l : list Q) : Q :=
  match l with [] => q | x :: xs => Qmax_list (if Qle_bool q x then x else q) xs end.

(** [dl.ptp()], [dl.min()], [dl.max()] and the padded range; numpy raises
    ValueError on a zero-size array. *)
Definition y_range (dl : list Q) : result (Q * Q) :=
  match dl with
  | [] => Err ValueError
  | d :: ds =>
      let mn := Qmin_list d ds in
      let mx := Qmax_list d ds in
      let min_max_margin := (mx - mn) * (1 # 10) in
      Ok (mn - min_max_margin, mx + min_max_margin)
  end.

(** [pd.api.types.is_numeric_dtype(_result_df['_x_'])]. *)
Definition is_numeric_column (xs : list cell) : bool :=
  forallb (fun c => match c with Num _ => true | Cat _ => false end) xs.

(** [int(np.ceil(n / facet_ncol))]; division by 0 raises. *)
Definition ceil_div (n k : Z) : result Z :=
  if Z.eqb k 0 then Err ZeroDivisionError else Ok (- ((- n) / k))%Z.

Section Plot.

(** The plotting library (plotly and the theme helpers), left abstract. *)
Variable Figure : Type.
(** [px.line(...).update_traces(...).update_xaxes(...).update_yaxes(...)]:
    data, facet order, facet_ncol, row and column spacing, render mode,
    number of colours, line size, opacity and y range. *)
Variable px_line : list plot_row -> list string -> Z -> Q -> Q -> string -> nat ->
  Q -> Q -> Q * Q -> result Figure.
(** [px.bar(...).update_xaxes(...).update_yaxes(...)]. *)
Variable px_bar : list plot_row -> list string -> Z -> Q -> Q -> nat -> Q * Q -> result Figure.
(** [fig.update_traces(dict(line_width=2*size, opacity=1))]. *)
Variable thicken : Figure -> Q -> Figure.
(** [self.raw_profiles.plot(variables=..., facet_ncol=..., show=False)]
    followed by its [update_traces] restyling. *)
Variable cp_plot : CeterisParibus -> list string -> Z -> result Figure.
(** [for value in fig.data: fig_cp.add_trace(value)]. *)
Variable add_traces : Figure -> Figure -> Figure.
(** [fig_update_line_plot(fig, title, title_x, plot_height, hovermode)];
    the last argument is [true] for 'x unified' and [false] for False. *)
Variable fig_update_line_plot : Figure -> string -> string -> Z -> bool -> Figure.

(** Everything [plot] does before [if show:]. *)
Definition plot_figure (self : AggregatedProfiles) (objects : apval) (geom : string)
    (variables : names_arg) (size alpha : Q) (facet_ncol : Z) (title title_x : string)
    (horizontal_spacing : Q) (vertical_spacing : option Q) : result Figure :=
  if negb (mem geom ["aggregates"; "profiles"]) then Err TypeError else
  let variables := check_variables variables in   (* str -> (str,) *)
  _result_df <-? merge_results self objects ;;
  (* variables to use *)
  let all_variables := unique (map (fun r => a_vname (fst r)) _result_df) in
  '(all_variables, _result_df) <-?
    match variables with
    | None => Ok (all_variables, _result_df)
    | Some vs =>
        let all_variables := intersect1d all_variables vs in
        match all_variables with
        | [] => Err TypeError
        | _ => Ok (all_variables,
                   filter (fun r => mem (a_vname (fst r)) all_variables) _result_df)
        end
    end ;;
  (* calculate y axis range to allow for fixedrange True *)
  min_max <-? y_range (map (fun r => a_yhat (fst r)) _result_df) ;;
  let is_x_numeric := is_numeric_column (map (fun r => a_x (fst r)) _result_df) in
  let n := Z.of_nat (length all_variables) in
  facet_nrow <-? ceil_div n facet_ncol ;;
  vertical_spacing <-?
    match vertical_spacing with
    | Some v => Ok v
    | None => if Z.eqb facet_nrow 0 then Err ZeroDivisionError
              else Ok ((3 # 10) / inject_Z facet_nrow)
    end ;;
  let plot_height := (78 + 71 + facet_nrow * (280 + 60))%Z in
  let m := length (unique (map (fun r => a_label (fst r)) _result_df)) in
  (* geom is 'profiles': object identity, modelled as equality of the
     strings; it agrees with Python when geom is the interned literal, not
     for an equal string built at run time *)
  let overlay := String.eqb geom "profiles" in
  '(fig, hovermode) <-?
    if is_x_numeric then
      let render_mode :=
        match ap_raw_profiles self with
        | Some _ => if overlay then "webgl" else "svg"
        | None => "svg"
        end in
      fig <-? px_line _result_df all_variables facet_ncol vertical_spacing horizontal_spacing
                      render_mode m size alpha min_max ;;
      match ap_raw_profiles self with
      | Some raw =>
          if overlay then
            let fig := thicken fig size in
            fig_cp <-? cp_plot raw all_variables facet_ncol ;;
            Ok (add_traces fig_cp fig, false)
          else Ok (fig, true)
      | None => Ok (fig, true)
      end
    else
      fig <-? px_bar _result_df all_variables facet_ncol vertical_spacing horizontal_spacing
                     m min_max ;;
      Ok (fig, true) ;;
  Ok (fig_update_line_plot fig title title_x plot_height hovermode).

(** [plot]: the figures displayed by [fig.show(...)], and the outcome (the
    returned value, [None] or the figure, or the exception). *)
Definition plot (self : AggregatedProfiles) (objects : apval) (geom : string)
    (variables : names_arg) (size alpha : Q) (facet_ncol : Z) (title title_x : string)
    (horizontal_spacing : Q) (vertical_spacing : option Q) (show : bool)
    : list Figure * result (option Figure) :=
  match plot_figure self objects geom variables size alpha facet_ncol title title_x
          horizontal_spacing vertical_spacing with
  | Err e => ([], Err e)
  | Ok fig => if show then ([fig], Ok None) else ([], Ok (Some fig))
  end.

End Plot.

(** ** Auxiliary predicates on inputs *)

(** Every element of a sequence is a CeterisParibus object. *)
Fixpoint all_cp (l : list pyobj) : bool :=
  match l with
  | [] => true
  | PyCP _ :: rest => all_cp rest
  | _ :: _ => false
  end.

(** Input accepted by the type check: a single CeterisParibus object, or a
    list/tuple whose every element is one. *)
Definition valid_input (x : pyobj) : bool :=
  match x with
  | PyCP _ => true
  | PyList l | PyTuple l => all_cp l
  | PyOther _ => false
  end.

Definition empty_sequence (x : pyobj) : bool :=
  match x with
  | PyList [] | PyTuple [] => true
  | _ => false
  end.

(** The CeterisParibus objects supplied to [fit]. *)
Definition cps_of_list (l : list pyobj) : list CeterisParibus :=
  flat_map (fun x => match x with PyCP cp => [cp] | _ => [] end) l.

Definition supplied (x : pyobj) : list CeterisParibus :=
  match x with
  | PyCP cp => [cp]
  | PyList l | PyTuple l => cps_of_list l
  | PyOther _ => []
  end.

Definition option_rows {A} (o : option (list A)) : list A :=
  match o with None => [] | Some a => a end.

(** ** Concrete objects for the examples *)

Definition fresh : AggregatedProfiles :=
  {| ap_variable_type := "numerical"; ap_groups := None; ap_type := "partial";
     ap_variables := None; ap_span := 1 # 4; ap_center := true;
     ap_result := None; ap_mean_prediction := None; ap_raw_profiles := None;
     ap_random_state := None |}.

Definition mk_cp (v : string) (x y : Q) (id : string) : CeterisParibus :=
  {| cp_result := [ {| p_vname := v; p_x := Num x; p_yhat := y; p_ids := id;
                       p_label := "rf" |} ];
     cp_new_observation := [ {| o_ids := id; o_yhat := y; o_label := "rf" |} ] |}.

Definition cp_a : CeterisParibus := mk_cp "age" 30 (1 # 2) "0".
Definition cp_b : CeterisParibus := mk_cp "age" 40 1 "1".
Definition cp_c : CeterisParibus := mk_cp "income" 5 2 "2".

(** Simple stand-ins for the modelled helpers of checks.py and utils.py. *)
Definition pnc_keep (vs : list string) (df : option (list profile_row)) (_ : string)
    : option (list profile_row * list string) := Some (option_rows df, vs).
Definition create_x_keep (df : list profile_row) (_ : string) : list profile_row := df.
Definition aggregate_rows (df : list profile_row) (_ : string) (_ : option (list string))
    (_ : bool) (_ : Q) (_ : bool) : list agg_row :=
  map (fun r => {| a_vname := p_vname r; a_x := p_x r; a_yhat := p_yhat r;
                   a_label := p_label r; a_groups := "" |}) df.

Definition fit0 := fit pnc_keep create_x_keep aggregate_rows.

Example init_default :
  init "partial" NamesNone "numerical" NamesNone (1 # 4) true None = Ok fresh.
Proof. reflexivity. Qed.

Example fit_single_example :
  ap_mean_prediction (fst (fit0 (PyCP cp_a) true fresh)) = Some (Float ((1 # 2) / 1)).
Proof. reflexivity. Qed.

Example fit_list_example :
  snd (fit0 (PyList [PyCP cp_a; PyCP cp_b]) true fresh) = Ok tt /\
  ap_raw_profiles (fst (fit0 (PyList [PyCP cp_a; PyCP cp_b]) true fresh)) = None.
Proof. split; reflexivity. Qed.

Example fit_bad_element_example :
  fit0 (PyList [PyCP cp_a; PyOther "1"]) true fresh = (fresh, Err TypeError).
Proof. reflexivity. Qed.

(** ** The list/tuple loop *)

Lemma option_rows_pd_concat {A} (acc : option (list A)) (df : list A) :
  option_rows (pd_concat acc df) = app (option_rows acc) df.
Proof. destruct acc; reflexivity. Qed.

Lemma collect_sequence_bad l ap ao :
  all_cp l = false -> collect_sequence l ap ao = Err TypeError.
Proof.
  revert ap ao; induction l as [|x l IH]; intros ap ao H; [discriminate|].
  destruct x; simpl in *; try reflexivity. now apply IH.
Qed.

Lemma collect_sequence_good l ap ao :
  all_cp l = true ->
  collect_sequence l ap ao =
  Ok (match l with [] => ap
      | _ => Some (app (option_rows ap) (flat_map cp_result (cps_of_list l))) end,
      match l with [] => ao
      | _ => Some (app (option_rows ao) (flat_map cp_new_observation (cps_of_list l))) end).
Proof.
  revert ap ao; induction l as [|x l IH]; intros ap ao H; [reflexivity|].
  destruct x as [cp| | |]; simpl in H; try discriminate.
  simpl. rewrite (IH _ _ H).
  destruct l as [|y l'].
  - simpl. rewrite !app_nil_r. destruct ap, ao; reflexivity.
  - rewrite !option_rows_pd_concat, !app_assoc. reflexivity.
Qed.

Lemma collect_sequence_cases l ap ao r :
  collect_sequence l ap ao = r ->
  (all_cp l = false /\ r = Err TypeError) \/
  (all_cp l = true /\ r = Ok (match l with [] => ap
      | _ => Some (app (option_rows ap) (flat_map cp_result (cps_of_list l))) end,
      match l with [] => ao
      | _ => Some (app (option_rows ao) (flat_map cp_new_observation (cps_of_list l))) end)).
Proof.
  intros <-. destruct (all_cp l) eqn:E.
  - right. split; [reflexivity|]. now apply collect_sequence_good.
  - left. split; [reflexivity|]. now apply collect_sequence_bad.
Qed.

(** On a table (not None), [prepare_all_variables] can only raise
    ValueError. *)
Lemma prepare_all_variables_table t vs e :
  prepare_all_variables (Some t) vs = Err e -> e = ValueError.
Proof.
  unfold prepare_all_variables; simpl.
  destruct vs as [vs|]; [|discriminate].
  destruct (filter _ _); congruence.
Qed.

(** ** Properties of [fit] *)

(** Case analysis on the matches of the goal, innermost scrutinee first. *)
Ltac split_matches :=
  repeat (simpl in *;
          match goal with
          | |- context [match ?e with _ => _ end] =>
              lazymatch e with
              | context [match _ with _ => _ end] => fail
              | _ => let E := fresh "E" in destruct e eqn:E
              end
          end).

Section FitProps.

Variable prepare_numerical_categorical :
  list string -> option (list profile_row) -> string -> option (list profile_row * list string).
Variable create_x : list profile_row -> string -> list profile_row.
Variable aggregate_profiles :
  list profile_row -> string -> option (list string) -> bool -> Q -> bool -> list agg_row.

Let fitm := fit prepare_numerical_categorical create_x aggregate_profiles.

Lemma series_mean_nonempty (l : list Q) :
  l <> [] -> series_mean l = Float (Qsum l / inject_Z (Z.of_nat (length l))).
Proof. destruct l; [congruence | reflexivity]. Qed.

(** The outcome of the list/tuple branch, through [collect_sequence_cases]. *)
Ltac case_collect l :=
  destruct (collect_sequence_cases l None None _ eq_refl) as [[Hv Hc]|[Hv Hc]];
  rewrite Hc; destruct l.

(** C1 (amended): [fit] raises TypeError exactly when its argument is
    neither a CeterisParibus object nor a list/tuple of them (so a list with
    a non-container element is refused, not skipped), or when it is an empty
    list/tuple, which passes the type check but leaves no table to read. *)
Theorem fit_type_error_iff x verbose self :
  snd (fitm x verbose self) = Err TypeError <->
  valid_input x = false \/ empty_sequence x = true.
Proof.
  unfold fitm, fit, bind, lift, get, modify, ret, throw.
  destruct x as [cp|l|l|r]; simpl;
    [| case_collect l | case_collect l |]; split_matches; simpl in *;
    split; intro H;
    solve [ discriminate H | destruct H as [H|H]; congruence
          | auto | subst; discriminate
          | match goal with
            | E : prepare_all_variables (Some _) _ = Err _ |- _ =>
                apply prepare_all_variables_table in E; subst; discriminate
            end ].
Qed.

(** C3: after a successful [fit], [mean_prediction] is the mean of the
    [_yhat_] column of the concatenated observation tables of all supplied
    CeterisParibus objects (in the order supplied). *)
Theorem fit_mean_prediction x verbose self self' :
  fitm x verbose self = (self', Ok tt) ->
  ap_mean_prediction self' =
  Some (series_mean (map o_yhat (flat_map cp_new_observation (supplied x)))).
Proof.
  unfold fitm, fit, bind, lift, get, modify, ret, throw.
  destruct x as [cp|l|l|r]; simpl;
    [| case_collect l | case_collect l |]; split_matches; simpl in *;
    intro H; inversion H; subst; simpl; try reflexivity.
  rewrite app_nil_r. reflexivity.
Qed.

(** C7 (amended): a [fit] that raises leaves [result] and [mean_prediction]
    as they were. It leaves [raw_profiles] as it was too, except for a
    single CeterisParibus argument: its copy is stored at line 115, before
    the validation helpers run, and stays there when one of them raises. *)
Theorem fit_error_keeps_result x verbose self self' e :
  fitm x verbose self = (self', Err e) ->
  ap_result self' = ap_result self /\
  ap_mean_prediction self' = ap_mean_prediction self /\
  ap_raw_profiles self' =
    match x with PyCP cp => Some (deepcopy cp) | _ => ap_raw_profiles self end.
Proof.
  unfold fitm, fit, bind, lift, get, modify, ret, throw.
  destruct x as [cp|l|l|r]; simpl;
    [| case_collect l | case_collect l |]; split_matches; simpl in *;
    intro H; inversion H; subst; auto.
Qed.

(** C8: two calls of [fit] with the same input on objects of the same
    configuration have the same outcome, and when they succeed they store
    the same result table, whatever the objects held before. *)
Theorem fit_result_deterministic x verbose s1 s2 :
  same_config s1 s2 ->
  snd (fitm x verbose s1) = snd (fitm x verbose s2) /\
  (snd (fitm x verbose s1) = Ok tt ->
   ap_result (fst (fitm x verbose s1)) = ap_result (fst (fitm x verbose s2))).
Proof.
  destruct s1, s2; intros (H1 & H2 & H3 & H4 & H5 & H6 & H7); simpl in *; subst.
  unfold fitm, fit, bind, lift, get, modify, ret, throw.
  destruct x as [cp|l|l|r]; simpl;
    [| case_collect l | case_collect l |]; split_matches; simpl in *;
    split; try reflexivity; intro H; try discriminate H; reflexivity.
Qed.

(** C10: a list or tuple argument never writes [raw_profiles]: it keeps the
    value it had before the call (None on a fresh object, the copy stored by
    an earlier single-object [fit] otherwise). *)
Theorem fit_sequence_keeps_raw_profiles l verbose self :
  ap_raw_profiles (fst (fitm (PyList l) verbose self)) = ap_raw_profiles self /\
  ap_raw_profiles (fst (fitm (PyTuple l) verbose self)) = ap_raw_profiles self.
Proof.
  unfold fitm, fit, bind, lift, get, modify, ret, throw.
  split; split_matches; reflexivity.
Qed.

End FitProps.

(** The defect of C2 shows on helpers of checks.py and utils.py that do not
    raise: [prepare_numerical_categorical] returns its table and names. *)
Section FitNoValidationError.

Variable prepare_numerical_categorical :
  list string -> option (list profile_row) -> string -> list profile_row * list string.
Variable create_x : list profile_row -> string -> list profile_row.
Variable aggregate_profiles :
  list profile_row -> string -> option (list string) -> bool -> Q -> bool -> list agg_row.

Let fitm := fit (fun vs df vt => Some (prepare_numerical_categorical vs df vt))
              create_x aggregate_profiles.

(** C2 (the defect): on an object fitted first on one CeterisParibus object
    and then on a list of two, [raw_profiles] still holds the copy of the
    first object, not None, although the aggregated result now comes from the
    list. *)
Theorem refit_sequence_keeps_stale_raw_profiles :
  let s1 := fst (fitm (PyCP cp_a) true fresh) in
  snd (fitm (PyList [PyCP cp_b; PyCP cp_c]) true s1) = Ok tt /\
  ap_raw_profiles s1 = Some cp_a /\
  ap_raw_profiles (fst (fitm (PyList [PyCP cp_b; PyCP cp_c]) true s1)) = Some cp_a.
Proof.
  unfold fitm, fit, bind, lift, get, modify, ret, throw.
  simpl. split_matches; repeat split; reflexivity.
Qed.

End FitNoValidationError.

(** ** Properties of [__init__] *)

(** C9: a [variable_type] other than 'numerical' and 'categorical' makes the
    construction fail with a validation error (ValueError). *)
Theorem init_bad_variable_type type variables variable_type groups span center random_state :
  variable_type <> "numerical" -> variable_type <> "categorical" ->
  init type variables variable_type groups span center random_state = Err ValueError.
Proof.
  intros H1 H2. unfold init, check_variable_type, mem. simpl.
  destruct (String.eqb_spec variable_type "numerical"); [contradiction|].
  destruct (String.eqb_spec variable_type "categorical"); [contradiction|].
  reflexivity.
Qed.

(** ** Properties of [plot] *)

Lemma mem_In s l : mem s l = true <-> In s l.
Proof.
  unfold mem. rewrite existsb_exists. split.
  - intros [x [Hin Heq]]. apply String.eqb_eq in Heq. subst. exact Hin.
  - intros Hin. exists s. split; [exact Hin | apply String.eqb_refl].
Qed.

Lemma unique_aux_In v seen l : In v (unique_aux seen l) -> In v l.
Proof.
  revert seen; induction l as [|x l IH]; intros seen H; simpl in *; [contradiction|].
  destruct (mem x seen).
  - right. exact (IH _ H).
  - destruct H as [H|H]; [left; exact H | right; exact (IH _ H)].
Qed.

Lemma filter_none {A} (f : A -> bool) l :
  (forall a, In a l -> f a = false) -> filter f l = [].
Proof.
  induction l as [|a l IH]; intros H; simpl; [reflexivity|].
  rewrite (H a (or_introl eq_refl)). apply IH. intros b Hb. apply H. right. exact Hb.
Qed.

Lemma intersect1d_disjoint a b :
  (forall v, In v a -> ~ In v b) -> intersect1d a b = [].
Proof.
  intros H. unfold intersect1d.
  rewrite (filter_none (fun v => mem v b) a); [reflexivity|].
  intros v Hv. destruct (mem v b) eqn:E; [|reflexivity].
  apply mem_In in E. exfalso. exact (H v Hv E).
Qed.

Section PlotProps.

Variable Figure : Type.
Variable px_line : list plot_row -> list string -> Z -> Q -> Q -> string -> nat ->
  Q -> Q -> Q * Q -> result Figure.
Variable px_bar : list plot_row -> list string -> Z -> Q -> Q -> nat -> Q * Q -> result Figure.
Variable thicken : Figure -> Q -> Figure.
Variable cp_plot : CeterisParibus -> list string -> Z -> result Figure.
Variable add_traces : Figure -> Figure -> Figure.
Variable fig_update_line_plot : Figure -> string -> string -> Z -> bool -> Figure.

Let plotm := plot Figure px_line px_bar thicken cp_plot add_traces fig_update_line_plot.

(** C5: a [geom] other than 'aggregates' and 'profiles' raises TypeError
    before anything is built or displayed. *)
Theorem plot_bad_geom self objects geom variables size alpha facet_ncol title title_x
    horizontal_spacing vertical_spacing show :
  geom <> "aggregates" -> geom <> "profiles" ->
  plotm self objects geom variables size alpha facet_ncol title title_x
    horizontal_spacing vertical_spacing show = ([], Err TypeError).
Proof.
  intros H1 H2. unfold plotm, plot, plot_figure.
  assert (Hm : mem geom ["aggregates"; "profiles"] = false).
  { destruct (mem geom _) eqn:E; [|reflexivity].
    apply mem_In in E. destruct E as [E|[E|[]]]; congruence. }
  rewrite Hm. reflexivity.
Qed.

(** C4: a [variables] filter sharing no name with the [_vname_] column of
    the merged result tables makes [plot] raise TypeError. *)
Theorem plot_disjoint_variables self objects geom variables vs df size alpha facet_ncol
    title title_x horizontal_spacing vertical_spacing show :
  merge_results self objects = Ok df ->
  check_variables variables = Some vs ->
  (forall v, In v (map (fun r => a_vname (fst r)) df) -> ~ In v vs) ->
  plotm self objects geom variables size alpha facet_ncol title title_x
    horizontal_spacing vertical_spacing show = ([], Err TypeError).
Proof.
  intros Hm Hv Hd. unfold plotm, plot, plot_figure.
  destruct (negb (mem geom ["aggregates"; "profiles"])); [reflexivity|].
  rewrite Hm, Hv. simpl.
  rewrite intersect1d_disjoint; [reflexivity|].
  intros v Hin. apply Hd. exact (unique_aux_In v [] _ Hin).
Qed.

(** C6: a [plot] that returns normally either displays its figure and
    returns None ([show] true) or returns the figure without displaying
    anything ([show] false). *)
Theorem plot_show_or_return self objects geom variables size alpha facet_ncol title title_x
    horizontal_spacing vertical_spacing show displayed r :
  plotm self objects geom variables size alpha facet_ncol title title_x
    horizontal_spacing vertical_spacing show = (displayed, Ok r) ->
  (show = true /\ r = None /\ exists fig, displayed = [fig]) \/
  (show = false /\ displayed = [] /\ exists fig, r = Some fig).
Proof.
  unfold plotm, plot.
  destruct (plot_figure _ _ _ _ _ _ _ _ _ _ _ _ _ _ _ _ _ _) as [fig|e];
    [|discriminate].
  destruct show; intro H; inversion H; subst.
  - left. repeat split. exists fig. reflexivity.
  - right. repeat split. exists fig. reflexivity.
Qed.

End PlotProps.

(** ** Concrete plotting stand-ins, counterexample and witnesses *)

(** A figure stand-in: the rows it draws. *)
Definition fig_rows := list plot_row.
Definition px_line_rows (df : list plot_row) (_ : list string) (_ : Z) (_ _ : Q) (_ : string)
    (_ : nat) (_ _ : Q) (_ : Q * Q) : result fig_rows := Ok df.
Definition px_bar_rows (df : list plot_row) (_ : list string) (_ : Z) (_ _ : Q) (_ : nat)
    (_ : Q * Q) : result fig_rows := Ok df.
Definition thicken_rows (f : fig_rows) (_ : Q) : fig_rows := f.
Definition cp_plot_rows (_ : CeterisParibus) (_ : list string) (_ : Z) : result fig_rows := Ok [].
Definition add_traces_rows (f g : fig_rows) : fig_rows := app f g.
Definition update_rows (f : fig_rows) (_ _ : string) (_ : Z) (_ : bool) : fig_rows := f.

Definition plot0 := plot fig_rows px_line_rows px_bar_rows thicken_rows cp_plot_rows
  add_traces_rows update_rows.

(** The object fitted on [cp_a], and its merged result table. *)
Definition fitted_a : AggregatedProfiles := fst (fit0 (PyCP cp_a) true fresh).

Definition result_df_a : list plot_row :=
  [({| a_vname := "age"; a_x := Num 30; a_yhat := 1 # 2; a_label := "rf"; a_groups := "" |},
    Some (Float ((1 # 2) / 1)))].

Example merge_fitted_a : merge_results fitted_a VNone = Ok result_df_a.
Proof. reflexivity. Qed.

(** C1: an empty list passes the type check (every element is a
    CeterisParibus object) and still makes [fit] raise TypeError. *)
Lemma fit_empty_list_type_error :
  valid_input (PyList []) = true /\ fit0 (PyList []) true fresh = (fresh, Err TypeError).
Proof. split; reflexivity. Qed.

Lemma fit_mean_prediction_witness :
  fit0 (PyList [PyCP cp_a; PyCP cp_b]) true fresh =
    (fst (fit0 (PyList [PyCP cp_a; PyCP cp_b]) true fresh), Ok tt) /\
  ap_mean_prediction (fst (fit0 (PyList [PyCP cp_a; PyCP cp_b]) true fresh)) =
    Some (series_mean (map o_yhat (flat_map cp_new_observation [cp_a; cp_b]))).
Proof.
  split; [reflexivity|].
  apply (fit_mean_prediction pnc_keep create_x_keep aggregate_rows
           (PyList [PyCP cp_a; PyCP cp_b]) true fresh).
  reflexivity.
Defined.

(** An object restricted to a variable that [cp_a] does not have. *)
Definition only_income : AggregatedProfiles :=
  {| ap_variable_type := "numerical"; ap_groups := None; ap_type := "partial";
     ap_variables := Some ["income"]; ap_span := 1 # 4; ap_center := true;
     ap_result := None; ap_mean_prediction := None; ap_raw_profiles := None;
     ap_random_state := None |}.

(** Against C7 as stated: [fit(cp_a)] on [only_income] raises ValueError in
    [prepare_all_variables] (no overlap with the requested variables), and
    [raw_profiles], None before the call, now holds the copy of [cp_a]. *)
Lemma fit_error_leaves_raw_profiles :
  ap_raw_profiles only_income = None /\
  fit0 (PyCP cp_a) true only_income =
    (set_raw_profiles only_income (deepcopy cp_a), Err ValueError) /\
  ap_raw_profiles (set_raw_profiles only_income (deepcopy cp_a)) = Some cp_a.
Proof. repeat split. Qed.

Lemma fit_error_keeps_result_witness :
  fit0 (PyCP cp_a) true only_income =
    (set_raw_profiles only_income (deepcopy cp_a), Err ValueError) /\
  ap_result (set_raw_profiles only_income (deepcopy cp_a)) = ap_result only_income /\
  ap_mean_prediction (set_raw_profiles only_income (deepcopy cp_a)) =
    ap_mean_prediction only_income /\
  ap_raw_profiles (set_raw_profiles only_income (deepcopy cp_a)) = Some (deepcopy cp_a).
Proof.
  split; [reflexivity|].
  apply (fit_error_keeps_result pnc_keep create_x_keep aggregate_rows
           (PyCP cp_a) true only_income _ ValueError).
  reflexivity.
Defined.

Lemma fit_result_deterministic_witness :
  same_config fresh (fst (fit0 (PyCP cp_b) true fresh)) /\
  snd (fit0 (PyCP cp_a) true fresh) =
    snd (fit0 (PyCP cp_a) true (fst (fit0 (PyCP cp_b) true fresh))) /\
  (snd (fit0 (PyCP cp_a) true fresh) = Ok tt ->
   ap_result (fst (fit0 (PyCP cp_a) true fresh)) =
   ap_result (fst (fit0 (PyCP cp_a) true (fst (fit0 (PyCP cp_b) true fresh))))).
Proof.
  assert (H : same_config fresh (fst (fit0 (PyCP cp_b) true fresh))).
  { repeat split. }
  split; [exact H|].
  exact (fit_result_deterministic pnc_keep create_x_keep aggregate_rows
           (PyCP cp_a) true fresh _ H).
Defined.

Lemma init_bad_variable_type_witness :
  "ordinal" <> "numerical" /\ "ordinal" <> "categorical" /\
  init "partial" NamesNone "ordinal" NamesNone (1 # 4) true None = Err ValueError.
Proof.
  split; [discriminate|]. split; [discriminate|].
  apply init_bad_variable_type; discriminate.
Defined.

Lemma plot_disjoint_variables_witness :
  merge_results fitted_a VNone = Ok result_df_a /\
  check_variables (NamesStr "income") = Some ["income"] /\
  plot0 fitted_a VNone "aggregates" (NamesStr "income") 2 1 2 "Aggregated Profiles"
    "prediction" (1 # 20) None true = ([], Err TypeError).
Proof.
  split; [reflexivity|]. split; [reflexivity|].
  apply (plot_disjoint_variables fig_rows px_line_rows px_bar_rows thicken_rows cp_plot_rows
           add_traces_rows update_rows fitted_a VNone "aggregates" (NamesStr "income")
           ["income"] result_df_a).
  - reflexivity.
  - reflexivity.
  - simpl. intros v [Hv|[]] [Hi|[]]. subst. discriminate.
Defined.

Lemma plot_bad_geom_witness :
  "lines" <> "aggregates" /\ "lines" <> "profiles" /\
  plot0 fitted_a VNone "lines" NamesNone 2 1 2 "Aggregated Profiles"
    "prediction" (1 # 20) None true = ([], Err TypeError).
Proof.
  split; [discriminate|]. split; [discriminate|].
  apply (plot_bad_geom fig_rows px_line_rows px_bar_rows thicken_rows cp_plot_rows
           add_traces_rows update_rows); discriminate.
Defined.

Lemma plot_show_or_return_witness :
  plot0 fitted_a VNone "aggregates" NamesNone 2 1 2 "Aggregated Profiles"
    "prediction" (1 # 20) None true = ([result_df_a], Ok None) /\
  ((true = true /\ @None fig_rows = None /\ exists fig, [result_df_a] = [fig]) \/
   (true = false /\ [result_df_a] = [] /\ exists fig, @None fig_rows = Some fig)).
Proof.
  split; [reflexivity|].
  apply (plot_show_or_return fig_rows px_line_rows px_bar_rows thicken_rows cp_plot_rows
           add_traces_rows update_rows fitted_a VNone "aggregates" NamesNone 2 1 2
           "Aggregated Profiles" "prediction" (1 # 20) None true).
  reflexivity.
Defined.

(** ** Further properties of [fit] *)

Section FitExtra.

Variable prepare_numerical_categorical :
  list string -> option (list profile_row) -> string -> option (list profile_row * list string).
Variable create_x : list profile_row -> string -> list profile_row.
Variable aggregate_profiles :
  list profile_row -> string -> option (list string) -> bool -> Q -> bool -> list agg_row.

Let fitx := fit prepare_numerical_categorical create_x aggregate_profiles.

(** The line [self.raw_profiles = deepcopy(ceteris_paribus)] runs before
    any other step that could fail: after [fit] on one CeterisParibus
    object, [raw_profiles] holds that object, whatever the outcome. *)
Theorem fit_single_writes_raw_profiles cp verbose self :
  ap_raw_profiles (fst (fitx (PyCP cp) verbose self)) = Some cp.
Proof.
  unfold fitx, fit, bind, lift, get, modify, ret, throw. split_matches; reflexivity.
Qed.

(** A one-element list and the element itself give the same outcome, the
    same result table and the same mean prediction. *)
Theorem fit_singleton_list_as_single cp verbose self :
  snd (fitx (PyList [PyCP cp]) verbose self) = snd (fitx (PyCP cp) verbose self) /\
  ap_result (fst (fitx (PyList [PyCP cp]) verbose self)) =
    ap_result (fst (fitx (PyCP cp) verbose self)) /\
  ap_mean_prediction (fst (fitx (PyList [PyCP cp]) verbose self)) =
    ap_mean_prediction (fst (fitx (PyCP cp) verbose self)).
Proof.
  unfold fitx, fit, bind, lift, get, modify, ret, throw.
  replace (collect_sequence [PyCP cp] None None)
    with (Ok (Some (cp_result cp), Some (cp_new_observation cp))) by reflexivity.
  split_matches; repeat split.
Qed.

(** [fit] never changes the configuration of the object. *)
Theorem fit_keeps_config x verbose self :
  same_config self (fst (fitx x verbose self)).
Proof.
  unfold fitx, fit, bind, lift, get, modify, ret, throw, same_config.
  destruct x; split_matches; repeat split.
Qed.

(** Calling [fit] a second time with the same input leaves the object in
    the state the first call left it in, with the same outcome. *)
Theorem fit_repeat_same_state x verbose self :
  fitx x verbose (fst (fitx x verbose self)) = fitx x verbose self.
Proof.
  destruct self.
  unfold fitx, fit, bind, lift, get, modify, ret, throw,
    set_mean_prediction, set_result, set_raw_profiles, deepcopy.
  destruct x;
    repeat (cbn in *;
            match goal with
            | |- context [match ?e with _ => _ end] =>
                lazymatch e with
                | context [match _ with _ => _ end] => fail
                | _ => let E := fresh "E" in destruct e eqn:E
                end
            end); cbn in *;
    repeat match goal with
           | H1 : ?a = ?b, H2 : ?a = ?c |- _ =>
               lazymatch b with
               | c => fail
               | _ => rewrite H1 in H2; injection H2; intros; subst
               end
           | H : _ :: _ = _ :: _ |- _ => injection H; clear H; intros; subst
           | H : Some _ = Some _ |- _ => injection H; clear H; intros; subst
           | H : Ok _ = Ok _ |- _ => injection H; clear H; intros; subst
           end; congruence.
Qed.

End FitExtra.

(** ** Further properties of [plot] and its helpers *)

Lemma Qmin_list_le_start q l : Qmin_list q l <= q.
Proof.
  revert q; induction l as [|x l IH]; intro q; simpl; [apply Qle_refl|].
  destruct (Qle_bool x q) eqn:E.
  - apply Qle_bool_iff in E. eapply Qle_trans; [apply IH | exact E].
  - apply IH.
Qed.

Lemma Qmin_list_le q l y : In y l -> Qmin_list q l <= y.
Proof.
  revert q; induction l as [|x l IH]; intros q Hin; simpl in *; [contradiction|].
  destruct Hin as [Hxy|Hin]; [subst x|].
  - destruct (Qle_bool y q) eqn:E; [apply Qmin_list_le_start|].
    eapply Qle_trans; [apply Qmin_list_le_start|].
    apply Qlt_le_weak, Qnot_le_lt. intro Hyq. apply Qle_bool_iff in Hyq. congruence.
  - apply IH. exact Hin.
Qed.

Lemma Qmax_list_ge_start q l : q <= Qmax_list q l.
Proof.
  revert q; induction l as [|x l IH]; intro q; simpl; [apply Qle_refl|].
  destruct (Qle_bool q x) eqn:E.
  - apply Qle_bool_iff in E. eapply Qle_trans; [exact E | apply IH].
  - apply IH.
Qed.

Lemma Qmax_list_ge q l y : In y l -> y <= Qmax_list q l.
Proof.
  revert q; induction l as [|x l IH]; intros q Hin; simpl in *; [contradiction|].
  destruct Hin as [Hxy|Hin]; [subst x|].
  - destruct (Qle_bool q y) eqn:E; [apply Qmax_list_ge_start|].
    eapply Qle_trans; [|apply Qmax_list_ge_start].
    apply Qlt_le_weak, Qnot_le_lt. intro Hyq. apply Qle_bool_iff in Hyq. congruence.
  - apply IH. exact Hin.
Qed.

(** The fixed y range of [plot] contains every plotted prediction: the
    padding [ptp * 0.10] is never negative, so no value is clipped. *)
Theorem y_range_contains dl lo hi :
  y_range dl = Ok (lo, hi) -> forall y, In y dl -> lo <= y /\ y <= hi.
Proof.
  destruct dl as [|d ds]; [discriminate|]. simpl. intros H y Hin.
  injection H as <- <-.
  assert (Hmn : Qmin_list d ds <= y).
  { destruct Hin as [<-|Hin]; [apply Qmin_list_le_start | apply Qmin_list_le; exact Hin]. }
  assert (Hmx : y <= Qmax_list d ds).
  { destruct Hin as [<-|Hin]; [apply Qmax_list_ge_start | apply Qmax_list_ge; exact Hin]. }
  split; lra.
Qed.

(** With a positive [facet_ncol], [facet_nrow = ceil(n / facet_ncol)] rows
    hold all [n] facets and the last row is not empty. *)
Theorem facet_rows_fit n facet_ncol :
  (0 < facet_ncol)%Z ->
  exists facet_nrow, ceil_div n facet_ncol = Ok facet_nrow /\
    ((facet_nrow - 1) * facet_ncol < n <= facet_nrow * facet_ncol)%Z.
Proof.
  intros Hk. unfold ceil_div.
  destruct (Z.eqb_spec facet_ncol 0) as [E|_]; [lia|].
  eexists; split; [reflexivity|].
  pose proof (Z.div_mod (- n) facet_ncol ltac:(lia)) as Hdm.
  pose proof (Z.mod_pos_bound (- n) facet_ncol Hk) as Hb.
  nia.
Qed.

Lemma ceil_div_zero_rows n k :
  (0 <= n)%Z -> (n < - k)%Z -> ceil_div n k = Ok 0%Z.
Proof.
  intros H0 H1. unfold ceil_div.
  destruct (Z.eqb_spec k 0) as [E|_]; [lia|].
  replace (- n / k)%Z with (n / - k)%Z.
  - rewrite Z.div_small by lia. reflexivity.
  - rewrite <- (Z.div_opp_opp n (- k)) by lia. rewrite Z.opp_involutive. reflexivity.
Qed.

(** Objects a [for ob in objects] loop accepts: fitted AggregatedProfiles. *)
Definition fitted_ap (o : apval) : Prop :=
  match o with VAP ob => ap_result ob <> None | _ => True end.

Definition is_ap (o : apval) : bool :=
  match o with VAP _ => true | _ => false end.

Lemma concat_objects_type_error acc l :
  Forall fitted_ap l -> existsb (fun o => negb (is_ap o)) l = true ->
  concat_objects acc l = Err TypeError.
Proof.
  revert acc; induction l as [|o l IH]; intros acc Hf He; simpl in *; [discriminate|].
  inversion Hf as [|? ? Ho Hl]; subst.
  destruct o as [|ob| |]; simpl in *; try reflexivity.
  unfold assign_mp. destruct (ap_result ob); [|contradiction].
  simpl. apply IH; assumption.
Qed.

Lemma merge_single_as_sequence self ob :
  merge_results self (VAP ob) = merge_results self (VSeq [VAP ob]).
Proof.
  simpl. destruct (assign_mp self); simpl; [|reflexivity].
  destruct (assign_mp ob); reflexivity.
Qed.

Lemma merge_empty_sequence self :
  merge_results self (VSeq []) = merge_results self VNone.
Proof. simpl. destruct (assign_mp self); reflexivity. Qed.

Section PlotExtra.

Variable Figure : Type.
Variable px_line : list plot_row -> list string -> Z -> Q -> Q -> string -> nat ->
  Q -> Q -> Q * Q -> result Figure.
Variable px_bar : list plot_row -> list string -> Z -> Q -> Q -> nat -> Q * Q -> result Figure.
Variable thicken : Figure -> Q -> Figure.
Variable cp_plot : CeterisParibus -> list string -> Z -> result Figure.
Variable add_traces : Figure -> Figure -> Figure.
Variable fig_update_line_plot : Figure -> string -> string -> Z -> bool -> Figure.

Let plotx := plot Figure px_line px_bar thicken cp_plot add_traces fig_update_line_plot.

Lemma valid_geom_check geom :
  geom = "aggregates" \/ geom = "profiles" ->
  negb (mem geom ["aggregates"; "profiles"]) = false.
Proof. intros [-> | ->]; reflexivity. Qed.

(** Plotting an object that was never fitted ([result] is None) raises
    AttributeError at [self.result.assign], whatever [objects] is. *)
Theorem plot_unfitted_attribute_error self objects geom variables size alpha facet_ncol
    title title_x horizontal_spacing vertical_spacing show :
  geom = "aggregates" \/ geom = "profiles" ->
  ap_result self = None ->
  plotx self objects geom variables size alpha facet_ncol title title_x
    horizontal_spacing vertical_spacing show = ([], Err AttributeError).
Proof.
  intros Hg Hr. unfold plotx, plot, plot_figure.
  rewrite (valid_geom_check geom Hg).
  assert (Hm : merge_results self objects = Err AttributeError).
  { destruct objects; simpl; unfold assign_mp at 1; rewrite Hr; reflexivity. }
  rewrite Hm. reflexivity.
Qed.

(** On a fitted object, an [objects] argument that is not iterable, or an
    iterable of which some element is not an AggregatedProfiles object (the
    others being fitted ones), makes [plot] raise TypeError. *)
Theorem plot_objects_type_error self objects geom variables size alpha facet_ncol
    title title_x horizontal_spacing vertical_spacing show :
  geom = "aggregates" \/ geom = "profiles" ->
  ap_result self <> None ->
  (objects = VOther \/
   exists l, objects = VSeq l /\ Forall fitted_ap l /\
             existsb (fun o => negb (is_ap o)) l = true) ->
  plotx self objects geom variables size alpha facet_ncol title title_x
    horizontal_spacing vertical_spacing show = ([], Err TypeError).
Proof.
  intros Hg Hr Ho. unfold plotx, plot, plot_figure.
  rewrite (valid_geom_check geom Hg).
  assert (Hm : merge_results self objects = Err TypeError).
  { assert (Ha : exists d, assign_mp self = Ok d).
    { unfold assign_mp. destruct (ap_result self); [eexists; reflexivity | contradiction]. }
    destruct Ha as [d Hd].
    destruct Ho as [->|[l [-> [Hf He]]]]; simpl; rewrite Hd; simpl; [reflexivity|].
    apply concat_objects_type_error; assumption. }
  rewrite Hm. reflexivity.
Qed.

(** One object and a one-element list of it give the same plot, and an
    empty list gives the plot of [self] alone. *)
Theorem plot_single_object_as_list self ob geom variables size alpha facet_ncol
    title title_x horizontal_spacing vertical_spacing show :
  plotx self (VAP ob) geom variables size alpha facet_ncol title title_x
    horizontal_spacing vertical_spacing show =
  plotx self (VSeq [VAP ob]) geom variables size alpha facet_ncol title title_x
    horizontal_spacing vertical_spacing show /\
  plotx self (VSeq []) geom variables size alpha facet_ncol title title_x
    horizontal_spacing vertical_spacing show =
  plotx self VNone geom variables size alpha facet_ncol title title_x
    horizontal_spacing vertical_spacing show.
Proof.
  unfold plotx, plot, plot_figure.
  rewrite merge_single_as_sequence, merge_empty_sequence. split; reflexivity.
Qed.

(** Without stored raw profiles, [geom='profiles'] draws exactly what
    [geom='aggregates'] draws. *)
Theorem plot_profiles_without_raw self objects variables size alpha facet_ncol
    title title_x horizontal_spacing vertical_spacing show :
  ap_raw_profiles self = None ->
  plotx self objects "profiles" variables size alpha facet_ncol title title_x
    horizontal_spacing vertical_spacing show =
  plotx self objects "aggregates" variables size alpha facet_ncol title title_x
    horizontal_spacing vertical_spacing show.
Proof.
  intros Hr. unfold plotx, plot, plot_figure. rewrite Hr. reflexivity.
Qed.

(** An empty merged table with no [variables] filter makes [plot] raise
    ValueError (numpy's min/max of a zero-size array). *)
Theorem plot_empty_table_value_error self objects geom size alpha facet_ncol
    title title_x horizontal_spacing vertical_spacing show :
  geom = "aggregates" \/ geom = "profiles" ->
  merge_results self objects = Ok [] ->
  plotx self objects geom NamesNone size alpha facet_ncol title title_x
    horizontal_spacing vertical_spacing show = ([], Err ValueError).
Proof.
  intros Hg Hm. unfold plotx, plot, plot_figure.
  rewrite (valid_geom_check geom Hg), Hm. reflexivity.
Qed.

(** On a non-empty merged table with no [variables] filter, [facet_ncol = 0]
    raises ZeroDivisionError; so does a default [vertical_spacing] when
    [facet_ncol] is negative with more columns than variables, since then
    [facet_nrow] is 0. *)
Theorem plot_facet_zero_division self objects geom df size alpha facet_ncol
    title title_x horizontal_spacing vertical_spacing show :
  geom = "aggregates" \/ geom = "profiles" ->
  merge_results self objects = Ok df -> df <> [] ->
  (facet_ncol = 0%Z \/
   (vertical_spacing = None /\
    (Z.of_nat (length (unique (map (fun r => a_vname (fst r)) df))) < - facet_ncol)%Z)) ->
  plotx self objects geom NamesNone size alpha facet_ncol title title_x
    horizontal_spacing vertical_spacing show = ([], Err ZeroDivisionError).
Proof.
  intros Hg Hm Hne Hf. unfold plotx, plot, plot_figure.
  rewrite (valid_geom_check geom Hg), Hm.
  assert (Hy : exists mm, y_range (map (fun r => a_yhat (fst r)) df) = Ok mm)
    by (destruct df; [contradiction | eexists; reflexivity]).
  destruct Hy as [mm Hy].
  cbn -[ceil_div y_range]. rewrite Hy. cbn -[ceil_div].
  destruct Hf as [->|[-> Hlt]]; [reflexivity|].
  rewrite (ceil_div_zero_rows _ _ (Zle_0_nat _) Hlt). reflexivity.
Qed.

End PlotExtra.

(** ** Witnesses of the further properties *)

Definition empty_fitted : AggregatedProfiles := set_result fresh [].

Lemma y_range_contains_witness :
  y_range [1; 3] = Ok (1 - (3 - 1) * (1 # 10), 3 + (3 - 1) * (1 # 10)) /\
  (1 - (3 - 1) * (1 # 10) <= 3 /\ 3 <= 3 + (3 - 1) * (1 # 10)).
Proof.
  split; [reflexivity|].
  apply (y_range_contains [1; 3]); [reflexivity | right; left; reflexivity].
Defined.

Lemma facet_rows_fit_witness :
  (0 < 2)%Z /\
  exists facet_nrow, ceil_div 3 2 = Ok facet_nrow /\
    ((facet_nrow - 1) * 2 < 3 <= facet_nrow * 2)%Z.
Proof.
  split; [lia|]. apply facet_rows_fit. lia.
Defined.

Lemma plot_unfitted_attribute_error_witness :
  ap_result fresh = None /\
  plot0 fresh VNone "aggregates" NamesNone 2 1 2 "Aggregated Profiles" "prediction"
    (1 # 20) None true = ([], Err AttributeError).
Proof.
  split; [reflexivity|].
  apply (plot_unfitted_attribute_error fig_rows px_line_rows px_bar_rows thicken_rows
           cp_plot_rows add_traces_rows update_rows); [left; reflexivity | reflexivity].
Defined.

Lemma plot_objects_type_error_witness :
  ap_result fitted_a <> None /\
  plot0 fitted_a (VSeq [VAP fitted_a; VOther]) "aggregates" NamesNone 2 1 2
    "Aggregated Profiles" "prediction" (1 # 20) None true = ([], Err TypeError).
Proof.
  assert (H : ap_result fitted_a <> None) by discriminate.
  split; [exact H|].
  apply (plot_objects_type_error fig_rows px_line_rows px_bar_rows thicken_rows
           cp_plot_rows add_traces_rows update_rows); [left; reflexivity | exact H |].
  right. exists [VAP fitted_a; VOther]. split; [reflexivity|]. split; [|reflexivity].
  repeat constructor. exact H.
Defined.

Lemma plot_profiles_without_raw_witness :
  ap_raw_profiles (fst (fit0 (PyList [PyCP cp_a]) true fresh)) = None /\
  plot0 (fst (fit0 (PyList [PyCP cp_a]) true fresh)) VNone "profiles" NamesNone 2 1 2
    "Aggregated Profiles" "prediction" (1 # 20) None true =
  plot0 (fst (fit0 (PyList [PyCP cp_a]) true fresh)) VNone "aggregates" NamesNone 2 1 2
    "Aggregated Profiles" "prediction" (1 # 20) None true.
Proof.
  split; [reflexivity|].
  apply (plot_profiles_without_raw fig_rows px_line_rows px_bar_rows thicken_rows
           cp_plot_rows add_traces_rows update_rows). reflexivity.
Defined.

Lemma plot_empty_table_value_error_witness :
  merge_results empty_fitted VNone = Ok [] /\
  plot0 empty_fitted VNone "aggregates" NamesNone 2 1 2 "Aggregated Profiles" "prediction"
    (1 # 20) None true = ([], Err ValueError).
Proof.
  split; [reflexivity|].
  apply (plot_empty_table_value_error fig_rows px_line_rows px_bar_rows thicken_rows
           cp_plot_rows add_traces_rows update_rows); [left | ]; reflexivity.
Defined.

Lemma plot_facet_zero_division_witness :
  merge_results fitted_a VNone = Ok result_df_a /\
  plot0 fitted_a VNone "aggregates" NamesNone 2 1 (-2) "Aggregated Profiles" "prediction"
    (1 # 20) None true = ([], Err ZeroDivisionError).
Proof.
  split; [reflexivity|].
  apply (plot_facet_zero_division fig_rows px_line_rows px_bar_rows thicken_rows
           cp_plot_rows add_traces_rows update_rows fitted_a VNone "aggregates" result_df_a).
  - left. reflexivity.
  - reflexivity.
  - discriminate.
  - right. split; [reflexivity|]. vm_compute. reflexivity.
Defined.
